(** * Art_to_Anki: the filename parser and the deck generator

    A shallow embedding of [enhanced_art_to_anki.py].

    Python strings are modelled as [string]; a character is a code point
    below 256 (the ASCII and Latin-1 range), which is where the tables of
    the program live.  The library calls the program makes ([os.path.splitext],
    [os.path.join], [re.sub] with the three patterns used, [str.split],
    [str.join], [str.replace], [str.strip], [str.lower], [str.endswith]) are
    written out as functions with the behaviour CPython gives them on POSIX.
    Indexing a list, the one operation of [parse_filename] that can raise,
    goes through the [outcome] monad. *)

From Stdlib Require Import List String Ascii Bool Arith Lia ZArith.
From Stdlib Require Import Permutation DecimalString.
Import ListNotations.
Open Scope string_scope.
Open Scope list_scope.
Open Scope nat_scope.

(** ** Exceptions *)

Inductive exn : Type :=
| IndexError.

Inductive outcome (A : Type) : Type :=
| Returns (a : A)
| Raises (e : exn).

Arguments Returns {A} a.
Arguments Raises {A} e.

Definition bind {A B : Type} (m : outcome A) (k : A -> outcome B) : outcome B :=
  match m with
  | Returns a => k a
  | Raises e => Raises e
  end.

Notation "x <- m ;; k" := (bind m (fun x => k))
  (at level 61, m at next level, right associativity).

(** ** Python string primitives *)

Module Py.

(** [str.isspace] on one character, which is also what [\s] matches in a
    [str] pattern: tab to carriage return, the four separators 28..31,
    space, NEL (133) and the no-break space (160). *)
Definition isspace (c : ascii) : bool :=
  let n := nat_of_ascii c in
  ((9 <=? n) && (n <=? 13)) || ((28 <=? n) && (n <=? 32))
  || (n =? 133) || (n =? 160).

(** [str.lower] on one character: A..Z, and the Latin-1 capitals 192..222
    without the multiplication sign 215. *)
Definition lower_char (c : ascii) : ascii :=
  let n := nat_of_ascii c in
  if ((65 <=? n) && (n <=? 90))
     || ((192 <=? n) && (n <=? 222) && negb (n =? 215))
  then ascii_of_nat (n + 32) else c.

Fixpoint lower (s : string) : string :=
  match s with
  | EmptyString => EmptyString
  | String c s' => String (lower_char c) (lower s')
  end.

(** [s.replace(a, b)] for one-character [a] and [b]. *)
Fixpoint replace (a b : ascii) (s : string) : string :=
  match s with
  | EmptyString => EmptyString
  | String c s' => String (if Ascii.eqb c a then b else c) (replace a b s')
  end.

(** [s.split(sep)] for a one-character separator: never the empty list. *)
Fixpoint split (sep : ascii) (s : string) : list string :=
  match s with
  | EmptyString => [EmptyString]
  | String c s' =>
      if Ascii.eqb c sep then EmptyString :: split sep s'
      else match split sep s' with
           | p :: ps => String c p :: ps
           | [] => [String c EmptyString]
           end
  end.

(** [sep.join(l)]. *)
Fixpoint join (sep : string) (l : list string) : string :=
  match l with
  | [] => EmptyString
  | [x] => x
  | x :: rest => x ++ sep ++ join sep rest
  end.

Fixpoint lstrip (s : string) : string :=
  match s with
  | EmptyString => EmptyString
  | String c s' => if isspace c then lstrip s' else s
  end.

Fixpoint rstrip (s : string) : string :=
  match s with
  | EmptyString => EmptyString
  | String c s' =>
      match rstrip s' with
      | EmptyString => if isspace c then EmptyString else String c EmptyString
      | r => String c r
      end
  end.

(** [s.strip()]. *)
Definition strip (s : string) : string := rstrip (lstrip s).

(** [s.endswith(suffix)]. *)
Definition endswith (s suffix : string) : bool :=
  let n := String.length s in
  let m := String.length suffix in
  (m <=? n) && String.eqb (substring (n - m) m s) suffix.

(** [s.rfind(c)] for one character: the last index of [c], or -1. *)
Fixpoint rfind_from (c : ascii) (s : string) (i : Z) (last : Z) : Z :=
  match s with
  | EmptyString => last
  | String d s' => rfind_from c s' (i + 1) (if Ascii.eqb d c then i else last)
  end.

Definition rfind (c : ascii) (s : string) : Z := rfind_from c s 0 (-1).

(** The loop of [genericpath._splitext] that skips the leading dots of the
    last path component: [true] when some character of [p] in
    [filenameIndex, dotIndex) is not a dot, [n] being the number of
    indices left to look at. *)
Fixpoint has_non_dot (p : string) (filenameIndex : nat) (n : nat) : bool :=
  match n with
  | O => false
  | S n' =>
      if negb (String.eqb (substring filenameIndex 1 p) ".") then true
      else has_non_dot p (S filenameIndex) n'
  end.

(** [os.path.splitext(p)] on POSIX. *)
Definition splitext (p : string) : string * string :=
  let sepIndex := rfind "/" p in
  let dotIndex := rfind "." p in
  if (sepIndex <? dotIndex)%Z then
    let filenameIndex := Z.to_nat (sepIndex + 1) in
    if has_non_dot p filenameIndex (Z.to_nat dotIndex - filenameIndex)
    then (substring 0 (Z.to_nat dotIndex) p,
          substring (Z.to_nat dotIndex) (String.length p - Z.to_nat dotIndex) p)
    else (p, EmptyString)
  else (p, EmptyString).

(** [os.path.join(a, b)] on POSIX. *)
Definition path_join (a b : string) : string :=
  match b with
  | String "/" _ => b
  | _ => if String.eqb a EmptyString || endswith a "/" then a ++ b
         else a ++ "/" ++ b
  end.

Definition newline : ascii := Eval cbv in ascii_of_nat 10.

(** [re.sub(pat + '$', '', s)] for a literal [pat]: [$] matches at the end
    of the string and just before a newline that ends it. *)
Definition re_sub_at_end (pat s : string) : string :=
  let n := String.length s in
  let m := String.length pat in
  if endswith s pat then substring 0 (n - m) s
  else if endswith s (pat ++ String newline EmptyString)
       then substring 0 (n - m - 1) s ++ String newline EmptyString
       else s.

(** [re.sub(r'\s+', ' ', s)]: every maximal run of whitespace becomes one
    space; [in_run] says that the previous character was whitespace. *)
Fixpoint collapse_from (in_run : bool) (s : string) : string :=
  match s with
  | EmptyString => EmptyString
  | String c s' =>
      if isspace c
      then (if in_run then collapse_from true s'
            else String " " (collapse_from true s'))
      else String c (collapse_from false s')
  end.

Definition re_sub_spaces (s : string) : string := collapse_from false s.

(** [x in l] for a list of strings. *)
Definition contains (l : list string) (x : string) : bool :=
  existsb (String.eqb x) l.

(** [l[0]]. *)
Definition index0 (l : list string) : outcome string :=
  match l with
  | x :: _ => Returns x
  | [] => Raises IndexError
  end.

(** Truth value of a list, of a string and of a value that may be [None]. *)
Definition truthy_list {A : Type} (l : list A) : bool :=
  match l with [] => false | _ => true end.

Definition truthy_str (s : string) : bool :=
  match s with EmptyString => false | _ => true end.

Definition truthy (v : option string) : bool :=
  match v with None => false | Some s => truthy_str s end.

(** [str(n)] for a natural number. *)
Definition str_of_nat (n : nat) : string :=
  NilEmpty.string_of_uint (Nat.to_uint n).

End Py.

(** ** parse_filename *)

Definition artwork_indicators : list string :=
  [ "the"; "a"; "an"; "portrait"; "self"; "untitled"; "study"; "landscape";
    "still"; "life"; "scene"; "view"; "garden"; "bridge"; "river"; "mountain";
    "woman"; "man"; "child"; "family"; "christ"; "madonna"; "saint"; "angel";
    "battle"; "war"; "peace"; "death"; "birth"; "creation"; "fall"; "rise";
    "morning"; "evening"; "night"; "day"; "sunset"; "sunrise"; "winter"; "summer";
    "spring"; "autumn"; "fall"; "snow"; "rain"; "storm"; "calm"; "wild" ].

(** The dictionary of compound artists, in insertion order. *)
Definition compound_artists : list (string * nat) :=
  [ ("Albert-Charles-Lebourg", 3);
    ("Albert-Marie-Lebourg", 3);
    ("Diego-Rodriguez-De-Silva-Y-Velazquez", 5);
    ("Diego-Velazquez", 2);
    ("Michelangelo-Merisi", 2);
    ("Caravaggio-Michelangelo-Merisi", 3) ].

(** The four lines that turn a list of segments into a field:
    join with spaces, underscores to spaces, strip, collapse whitespace. *)
Definition field_of (segments : list string) : string :=
  Py.re_sub_spaces (Py.strip (Py.replace "_" " " (Py.join " " segments))).

(** Lines 19-29: the name without extension and trailing marker, and its
    segments. *)
Definition stem (filename : string) : string :=
  let name := fst (Py.splitext filename) in
  let name := Py.re_sub_at_end "--S" name in
  Py.re_sub_at_end "-S" name.

Definition segments_of (name : string) : list string :=
  let parts := Py.split "-" name in
  if List.length parts <? 2 then Py.split "_" name else parts.

Definition name_parts (filename : string) : list string :=
  segments_of (stem filename).

(** Lines 55-67: the loop over the compound artists; [None] when the loop
    ends without returning. *)
Fixpoint match_compound (table : list (string * nat)) (parts : list string)
  : option (string * string) :=
  match table with
  | [] => None
  | (compound_name, length) :: table' =>
      if String.eqb (Py.join "-" (firstn length parts)) compound_name then
        let artist_parts := firstn length parts in
        let artwork_parts := skipn length parts in
        if Py.truthy_list artwork_parts
        then Some (field_of artist_parts, field_of artwork_parts)
        else match_compound table' parts
      else match_compound table' parts
  end.

(** Lines 70-88: the loop over the trial lengths. *)
Fixpoint try_lengths (lengths : list nat) (parts : list string)
  : outcome (option (string * string)) :=
  match lengths with
  | [] => Returns None
  | artist_length :: lengths' =>
      if artist_length <=? List.length parts then
        let artist_parts := firstn artist_length parts in
        let artwork_parts := skipn artist_length parts in
        if Py.truthy_list artwork_parts then
          first <- Py.index0 artwork_parts ;;
          let first_artwork_part := Py.lower first in
          if Py.contains artwork_indicators first_artwork_part
             || (1 <? List.length artwork_parts)
             || (artist_length =? 2)
          then Returns (Some (field_of artist_parts, field_of artwork_parts))
          else try_lengths lengths' parts
        else try_lengths lengths' parts
      else try_lengths lengths' parts
  end.

(** Lines 90-100: the fallback and the final return. *)
Definition fallback (parts : list string) : option string * option string :=
  if 3 <=? List.length parts
  then (Some (field_of (firstn 2 parts)), Some (field_of (skipn 2 parts)))
  else (None, None).

Definition both (r : string * string) : option string * option string :=
  (Some (fst r), Some (snd r)).

(** Lines 31-100, for a given iteration order of the dictionary. *)
Definition parse_parts (table : list (string * nat)) (parts : list string)
  : outcome (option string * option string) :=
  if List.length parts <? 2 then Returns (None, None)
  else
    match match_compound table parts with
    | Some r => Returns (both r)
    | None =>
        t <- try_lengths [2; 3; 1] parts ;;
        match t with
        | Some r => Returns (both r)
        | None => Returns (fallback parts)
        end
    end.

Definition parse_filename_in (table : list (string * nat)) (filename : string)
  : outcome (option string * option string) :=
  parse_parts table (name_parts filename).

Definition parse_filename (filename : string)
  : outcome (option string * option string) :=
  parse_filename_in compound_artists filename.

(** ** generate_anki_deck *)

(** The note model: its id is drawn at random by [create_art_model]; the
    card template and the style sheet are constants that nothing below
    reads. *)
Record Model : Type := {
  model_id : Z;
  model_name : string;
  model_fields : list string
}.

Record Note : Type := {
  note_model : Model;
  note_fields : list string;
  note_tags : list string
}.

Record Deck : Type := {
  deck_id : Z;
  deck_name : string;
  deck_notes : list Note
}.

Record Package : Type := {
  package_deck : Deck;
  media_files : list string
}.

Definition create_art_model (drawn_id : Z) : Model :=
  {| model_id := drawn_id;
     model_name := "Art History Model";
     model_fields := ["Image"; "Artist"; "Artwork"] |}.

Definition add_note (d : Deck) (n : Note) : Deck :=
  {| deck_id := deck_id d;
     deck_name := deck_name d;
     deck_notes := deck_notes d ++ [n] |}.

Definition image_extensions : list string :=
  [".jpg"; ".jpeg"; ".png"; ".gif"; ".bmp"].

(** Line 154: [any(file.lower().endswith(ext) for ext in image_extensions)]. *)
Definition is_image (file : string) : bool :=
  existsb (fun ext => Py.endswith (Py.lower file) ext) image_extensions.

(** Lines 150-156: the two lists grown over the directory listing. *)
Definition scan_step (art_folder : string) (acc : list string * list string)
  (file : string) : list string * list string :=
  if is_image file
  then (fst acc ++ [file], snd acc ++ [Py.path_join art_folder file])
  else acc.

Definition scan (art_folder : string) (listing : list string)
  : list string * list string :=
  fold_left (scan_step art_folder) listing ([], []).

(** What the second loop changes: the deck, the two counters and the
    lines printed so far. *)
Record State : Type := {
  deck : Deck;
  parsed_count : nat;
  failed_count : nat;
  stdout : list string
}.

Definition dquote : ascii := Eval cbv in ascii_of_nat 34.

Definition make_note (model : Model) (filename artist artwork : string) : Note :=
  {| note_model := model;
     note_fields :=
       [ ("<img src=" ++ String dquote (filename ++ String dquote ">"))%string;
         artist;
         artwork ];
     note_tags :=
       [ ("art_" ++ Py.lower (Py.replace " " "_" artist))%string; "art_history" ] |}.

Definition note_added (model : Model) (st : State)
  (filename artist artwork : string) : State :=
  {| deck := add_note (deck st) (make_note model filename artist artwork);
     parsed_count := parsed_count st + 1;
     failed_count := failed_count st;
     stdout := stdout st |}.

Definition failure_line (filename : string) : string :=
  ("Failed to parse: " ++ filename)%string.

Definition failure_noted (st : State) (filename : string) : State :=
  {| deck := deck st;
     parsed_count := parsed_count st;
     failed_count := failed_count st + 1;
     stdout := stdout st ++ [failure_line filename] |}.

(** Lines 165-183: the body of the loop over the image files. *)
Definition process_file (model : Model) (st : State) (filename : string)
  : outcome State :=
  r <- parse_filename filename ;;
  match r with
  | (Some artist, Some artwork) =>
      if Py.truthy_str artist && Py.truthy_str artwork
      then Returns (note_added model st filename artist artwork)
      else Returns (failure_noted st filename)
  | _ => Returns (failure_noted st filename)
  end.

Fixpoint for_each {S A : Type} (body : S -> A -> outcome S) (l : list A)
  (st : S) : outcome S :=
  match l with
  | [] => Returns st
  | x :: l' => st' <- body st x ;; for_each body l' st'
  end.

(** What a run leaves behind: the lines printed, the package handed to
    [write_to_file] with its path, and the value returned. *)
Record Run : Type := {
  run_stdout : list string;
  run_written : string * Package;
  run_returned : nat * nat
}.

(** [generate_anki_deck]; [listing] is what [os.listdir(art_folder)] gives,
    and the two ids are the draws of [random.randrange]. *)
Definition generate_anki_deck (drawn_model_id drawn_deck_id : Z)
  (listing : list string) (art_folder output_file : string) : outcome Run :=
  let model := create_art_model drawn_model_id in
  let deck0 := {| deck_id := drawn_deck_id;
                  deck_name := "Art History Collection";
                  deck_notes := [] |} in
  let image_files := fst (scan art_folder listing) in
  let media := snd (scan art_folder listing) in
  let st0 := {| deck := deck0;
                parsed_count := 0;
                failed_count := 0;
                stdout := [ ("Found " ++ Py.str_of_nat (List.length image_files)
                             ++ " image files")%string ] |} in
  st <- for_each (process_file model) image_files st0 ;;
  let package := {| package_deck := deck st; media_files := media |} in
  Returns
    {| run_stdout :=
         stdout st
         ++ [ ("Successfully parsed: " ++ Py.str_of_nat (parsed_count st))%string;
              ("Failed to parse: " ++ Py.str_of_nat (failed_count st))%string;
              ("Anki deck saved as: " ++ output_file)%string ];
       run_written := (output_file, package);
       run_returned := (parsed_count st, failed_count st) |}.


(** ** Notions used to state the properties *)

(** Whether the second loop makes a card of a file, and the card it makes. *)
Definition yields_card (filename : string) : bool :=
  match parse_filename filename with
  | Returns (Some artist, Some artwork) =>
      Py.truthy_str artist && Py.truthy_str artwork
  | _ => false
  end.

Definition fails_to_parse (filename : string) : bool :=
  negb (yields_card filename).

Definition card_of (model : Model) (filename : string) : Note :=
  match parse_filename filename with
  | Returns (Some artist, Some artwork) =>
      make_note model filename artist artwork
  | _ => make_note model filename EmptyString EmptyString
  end.

(** Whether a character occurs in a string. *)
Fixpoint occurs (c : ascii) (s : string) : bool :=
  match s with
  | EmptyString => false
  | String d s' => Ascii.eqb d c || occurs c s'
  end.

(** A string that the clean-up of a field leaves as it is: no whitespace
    and no underscore. *)
Fixpoint plain (s : string) : bool :=
  match s with
  | EmptyString => true
  | String c s' => negb (Py.isspace c) && negb (Ascii.eqb c "_") && plain s'
  end.

(** A lowercase ASCII letter, and a string made of such letters. *)
Definition lower_letter (c : ascii) : bool :=
  (97 <=? nat_of_ascii c) && (nat_of_ascii c <=? 122).

Fixpoint lower_letters (s : string) : bool :=
  match s with
  | EmptyString => true
  | String c s' => lower_letter c && lower_letters s'
  end.

(** The test of one entry of the table in the first loop. *)
Definition hit (parts : list string) (entry : string * nat) : bool :=
  String.eqb (Py.join "-" (firstn (snd entry) parts)) (fst entry)
  && Py.truthy_list (skipn (snd entry) parts).

Definition hit_fields (parts : list string) (entry : string * nat)
  : string * string :=
  (field_of (firstn (snd entry) parts), field_of (skipn (snd entry) parts)).

(** The state after the loop over [files], entered in [st]. *)
Definition after_files (model : Model) (files : list string) (st : State)
  : State :=
  {| deck :=
       {| deck_id := deck_id (deck st);
          deck_name := deck_name (deck st);
          deck_notes := deck_notes (deck st)
                        ++ map (card_of model) (filter yields_card files) |};
     parsed_count := parsed_count st + List.length (filter yields_card files);
     failed_count :=
       failed_count st + List.length (filter fails_to_parse files);
     stdout := stdout st ++ map failure_line (filter fails_to_parse files) |}.

(** What a run is, in closed form. *)
Definition run_of (drawn_model_id drawn_deck_id : Z) (images : list string)
  (art_folder output_file : string) : Run :=
  let failed := filter fails_to_parse images in
  let cards := filter yields_card images in
  {| run_stdout :=
       [ ("Found " ++ Py.str_of_nat (List.length images)
          ++ " image files")%string ]
       ++ map failure_line failed
       ++ [ ("Successfully parsed: "
             ++ Py.str_of_nat (List.length cards))%string;
            ("Failed to parse: "
             ++ Py.str_of_nat (List.length failed))%string;
            ("Anki deck saved as: " ++ output_file)%string ];
     run_written :=
       (output_file,
        {| package_deck :=
             {| deck_id := drawn_deck_id;
                deck_name := "Art History Collection";
                deck_notes :=
                  map (card_of (create_art_model drawn_model_id)) cards |};
           media_files := map (Py.path_join art_folder) images |});
     run_returned := (List.length cards, List.length failed) |}.

(** A field as the clean-up of lines 84-87 leaves it: no underscore, no
    whitespace at either end, and every run of whitespace a single space. *)
Definition cleaned (s : string) : Prop :=
  occurs "_" s = false /\ Py.strip s = s /\ Py.re_sub_spaces s = s.

(** A name that does not start with a slash, as [os.listdir] gives them. *)
Definition relative (file : string) : bool :=
  match file with
  | String c _ => negb (Ascii.eqb c "/")
  | EmptyString => true
  end.

(** The first field of a note, as line 172 builds it. *)
Definition image_field (filename : string) : string :=
  "<img src=" ++ String dquote (filename ++ String dquote ">").

(** Whether a string starts with a whitespace character. *)
Definition starts_with_space (s : string) : bool :=
  match s with
  | String c _ => Py.isspace c
  | EmptyString => false
  end.

(** A string with no whitespace in it, and a string whose only
    whitespace is the space character. *)
Fixpoint spaceless (s : string) : bool :=
  match s with
  | EmptyString => true
  | String c s' => negb (Py.isspace c) && spaceless s'
  end.

Fixpoint plain_spaces (s : string) : bool :=
  match s with
  | EmptyString => true
  | String c s' => (negb (Py.isspace c) || Ascii.eqb c " ") && plain_spaces s'
  end.

(** * Properties *)

(** ** The trial lengths and the fallback *)

Lemma try_lengths_total (lengths : list nat) (parts : list string) :
  exists r, try_lengths lengths parts = Returns r.
Proof.
  induction lengths as [|n lengths IH]; simpl.
  - now exists None.
  - destruct (n <=? List.length parts); [|exact IH].
    destruct (skipn n parts) as [|w ws]; simpl; [exact IH|].
    match goal with |- context [if ?c then _ else _] => destruct c end.
    + eexists; reflexivity.
    + exact IH.
Qed.

Lemma try_lengths_three (parts : list string) :
  3 <= List.length parts ->
  try_lengths [2; 3; 1] parts
  = Returns (Some (field_of (firstn 2 parts), field_of (skipn 2 parts))).
Proof.
  destruct parts as [|a [|b [|c rest]]]; simpl; try lia.
  intros _. now rewrite orb_true_r.
Qed.

Lemma match_compound_two (table : list (string * nat)) (a b : string) :
  Forall (fun e => 2 <= snd e) table ->
  match_compound table [a; b] = None.
Proof.
  induction 1 as [|[name n] table Hn _ IH]; simpl; [reflexivity|].
  simpl in Hn.
  destruct n as [|[|n]]; try lia.
  replace (skipn (S (S n)) [a; b]) with (@nil string)
    by (now destruct n).
  simpl. rewrite IH. now destruct (String.eqb _ _).
Qed.

Lemma compound_lengths : Forall (fun e => 2 <= snd e) compound_artists.
Proof. repeat constructor. Qed.

(** C3: a name with fewer than two segments under both separators gives
    (None, None).  The underscore split is attempted exactly when the dash
    split has fewer than two segments: for every name, it is the underscore
    split that is used in that case, whatever its length, and the dash
    split is kept whenever it has two segments or more. *)
Theorem parse_filename_too_few_segments (filename : string) :
  List.length (Py.split "-" (stem filename)) < 2 ->
  List.length (Py.split "_" (stem filename)) < 2 ->
  parse_filename filename = Returns (None, None)
  /\ name_parts filename = Py.split "_" (stem filename)
  /\ (forall other : string,
        List.length (Py.split "-" (stem other)) < 2 ->
        name_parts other = Py.split "_" (stem other))
  /\ (forall other : string,
        2 <= List.length (Py.split "-" (stem other)) ->
        name_parts other = Py.split "-" (stem other)).
Proof.
  intros Hdash Hunder.
  assert (Hsecond : forall other : string,
             List.length (Py.split "-" (stem other)) < 2 ->
             name_parts other = Py.split "_" (stem other)).
  { intros other Hother. unfold name_parts, segments_of.
    apply Nat.ltb_lt in Hother. now rewrite Hother. }
  split; [|split; [|split]].
  - unfold parse_filename, parse_filename_in, parse_parts.
    rewrite (Hsecond filename Hdash).
    apply Nat.ltb_lt in Hunder. now rewrite Hunder.
  - exact (Hsecond filename Hdash).
  - exact Hsecond.
  - intros other Hother. unfold name_parts, segments_of.
    apply Nat.ltb_ge in Hother. now rewrite Hother.
Qed.

Lemma parse_filename_too_few_segments_witness :
  parse_filename "Monet.jpg" = Returns (None, None)
  /\ name_parts "Monet.jpg" = ["Monet"]
  /\ name_parts "Claude_Monet_Water_Lilies.jpg"
     = ["Claude"; "Monet"; "Water"; "Lilies"]
  /\ name_parts "Claude_Monet-Water_Lilies.jpg"
     = ["Claude_Monet"; "Water_Lilies"].
Proof.
  destruct (parse_filename_too_few_segments "Monet.jpg")
    as (Hnone & Hparts & Hsecond & Hfirst).
  - vm_compute. lia.
  - vm_compute. lia.
  - split; [exact Hnone|]. split; [exact Hparts|]. split.
    + apply (Hsecond "Claude_Monet_Water_Lilies.jpg"). vm_compute. lia.
    + apply (Hfirst "Claude_Monet-Water_Lilies.jpg"). vm_compute. lia.
Defined.

(** C6, as the code has it: the trial length 2 is accepted first, so the
    artist of this file is its first two segments. *)
Theorem parse_starry_night :
  parse_filename "Vincent-Van-Gogh-Starry-Night--S.jpg"
  = Returns (Some "Vincent Van", Some "Gogh Starry Night").
Proof. reflexivity. Qed.

(** C6, as the specification states it, does not hold. *)
Lemma parse_starry_night_not_three_segments :
  parse_filename "Vincent-Van-Gogh-Starry-Night--S.jpg"
  <> Returns (Some "Vincent Van Gogh", Some "Starry Night").
Proof. vm_compute. discriminate. Qed.

(** C8: with three segments or more the result is never (None, None):
    the trial length 2 is accepted, so neither the fallback nor the final
    return is reached. *)
Theorem three_segments_always_parse (filename : string) :
  3 <= List.length (name_parts filename) ->
  parse_filename filename <> Returns (None, None)
  /\ (exists artist artwork,
        parse_filename filename = Returns (Some artist, Some artwork))
  /\ try_lengths [2; 3; 1] (name_parts filename)
     = Returns (Some (field_of (firstn 2 (name_parts filename)),
                      field_of (skipn 2 (name_parts filename))))
  /\ (forall other : string,
        parse_filename other = Returns (None, None) ->
        List.length (name_parts other) <= 2).
Proof.
  assert (Hall : forall name : string,
             3 <= List.length (name_parts name) ->
             exists artist artwork,
               parse_filename name = Returns (Some artist, Some artwork)).
  { clear filename. intros filename Hlen.
    unfold parse_filename, parse_filename_in, parse_parts.
    replace (List.length (name_parts filename) <? 2) with false
      by (symmetry; apply Nat.ltb_ge; lia).
    destruct (match_compound compound_artists (name_parts filename))
      as [[artist artwork]|].
    - now exists artist, artwork.
    - rewrite (try_lengths_three _ Hlen). simpl.
      eexists; eexists; reflexivity. }
  intros Hlen. split; [|split; [|split]].
  - destruct (Hall filename Hlen) as (artist & artwork & ->). discriminate.
  - exact (Hall filename Hlen).
  - now apply try_lengths_three.
  - intros other Hnone.
    destruct (Nat.le_gt_cases (List.length (name_parts other)) 2) as [H|H];
      [exact H|].
    destruct (Hall other H) as (artist & artwork & Hsome). congruence.
Qed.

Lemma three_segments_always_parse_witness :
  parse_filename "Claude-Monet-Water-Lilies.jpg" <> Returns (None, None)
  /\ (exists artist artwork,
        parse_filename "Claude-Monet-Water-Lilies.jpg"
        = Returns (Some artist, Some artwork))
  /\ try_lengths [2; 3; 1] (name_parts "Claude-Monet-Water-Lilies.jpg")
     = Returns
         (Some (field_of (firstn 2 (name_parts "Claude-Monet-Water-Lilies.jpg")),
                field_of (skipn 2 (name_parts "Claude-Monet-Water-Lilies.jpg"))))
  /\ (forall other : string,
        parse_filename other = Returns (None, None) ->
        List.length (name_parts other) <= 2).
Proof.
  apply (three_segments_always_parse "Claude-Monet-Water-Lilies.jpg").
  vm_compute. lia.
Defined.



(** ** parse_filename raises nothing *)

Lemma parse_parts_total (table : list (string * nat)) (parts : list string) :
  parse_parts table parts = Returns (None, None)
  \/ exists artist artwork,
       parse_parts table parts = Returns (Some artist, Some artwork).
Proof.
  unfold parse_parts.
  destruct (List.length parts <? 2); [now left|].
  destruct (match_compound table parts) as [[artist artwork]|].
  { right. now exists artist, artwork. }
  destruct (try_lengths_total [2; 3; 1] parts) as [[[artist artwork]|] ->];
    simpl.
  { right. now exists artist, artwork. }
  unfold fallback. destruct (3 <=? List.length parts).
  - right. eexists; eexists; reflexivity.
  - now left.
Qed.

Lemma parse_filename_total (filename : string) :
  parse_filename filename = Returns (None, None)
  \/ exists artist artwork,
       parse_filename filename = Returns (Some artist, Some artwork).
Proof. apply parse_parts_total. Qed.

(** ** The two loops of generate_anki_deck *)

Lemma filter_idempotent {A : Type} (p : A -> bool) (l : list A) :
  filter p (filter p l) = filter p l.
Proof.
  induction l as [|x l IH]; simpl; [reflexivity|].
  destruct (p x) eqn:Hp; simpl; [rewrite Hp|]; now rewrite ?IH.
Qed.


Section Run.

(** One run: the two ids drawn at random, the folder read and the file
    written. *)
Variables drawn_model_id drawn_deck_id : Z.
Variables art_folder output_file : string.

Lemma scan_from (listing images media : list string) :
  fold_left (scan_step art_folder) listing (images, media)
  = (images ++ filter is_image listing,
     media ++ map (Py.path_join art_folder) (filter is_image listing)).
Proof.
  revert images media.
  induction listing as [|file listing IH]; intros images media; simpl.
  - now rewrite !app_nil_r.
  - unfold scan_step at 2. destruct (is_image file); simpl.
    + rewrite IH, <- !app_assoc. reflexivity.
    + apply IH.
Qed.

Lemma scan_filter (listing : list string) :
  scan art_folder listing
  = (filter is_image listing,
     map (Py.path_join art_folder) (filter is_image listing)).
Proof. unfold scan. now rewrite scan_from. Qed.

Lemma process_file_cases (model : Model) (st : State) (filename : string) :
  process_file model st filename
  = Returns (if yields_card filename
             then {| deck := add_note (deck st) (card_of model filename);
                     parsed_count := parsed_count st + 1;
                     failed_count := failed_count st;
                     stdout := stdout st |}
             else failure_noted st filename).
Proof.
  unfold process_file, yields_card, card_of.
  destruct (parse_filename_total filename) as [->|(artist & artwork & ->)];
    simpl; [reflexivity|].
  now destruct (Py.truthy_str artist && Py.truthy_str artwork).
Qed.


Lemma for_each_process_file (model : Model) (files : list string) (st : State) :
  for_each (process_file model) files st
  = Returns (after_files model files st).
Proof.
  revert st. induction files as [|file files IH]; intros st.
  - unfold after_files. simpl. rewrite !app_nil_r, !Nat.add_0_r.
    now destruct st as [[? ? ?] ? ? ?].
  - simpl. rewrite process_file_cases. simpl. rewrite IH.
    unfold after_files, fails_to_parse. simpl.
    destruct (yields_card file); simpl;
      rewrite <- ?app_assoc, <- ?Nat.add_assoc; reflexivity.
Qed.


Lemma generate_anki_deck_run (listing : list string) :
  generate_anki_deck drawn_model_id drawn_deck_id listing art_folder
    output_file
  = Returns (run_of drawn_model_id drawn_deck_id (filter is_image listing)
               art_folder output_file).
Proof.
  unfold generate_anki_deck. rewrite scan_filter. simpl fst. simpl snd.
  rewrite for_each_process_file. reflexivity.
Qed.


(** C9: a parse can give an empty artwork, and the loop then counts the
    file as a failure; a note is added only for two non-empty fields. *)
Theorem empty_artwork_counts_as_failure :
  parse_filename "Claude-Monet-.jpg" = Returns (Some "Claude Monet", Some "")
  /\ (forall (model : Model) (st : State) (filename artist : string),
        parse_filename filename = Returns (Some artist, Some "") ->
        process_file model st filename = Returns (failure_noted st filename))
  /\ (forall (model : Model) (st st' : State) (filename : string),
        process_file model st filename = Returns st' ->
        deck_notes (deck st') <> deck_notes (deck st) ->
        exists artist artwork,
          parse_filename filename = Returns (Some artist, Some artwork)
          /\ artist <> "" /\ artwork <> ""
          /\ st' = note_added model st filename artist artwork).
Proof.
  split; [reflexivity|split].
  - intros model st filename artist H. unfold process_file. rewrite H. simpl.
    now rewrite andb_false_r.
  - intros model st st' filename H Hnotes. unfold process_file in H.
    destruct (parse_filename_total filename) as [Hp|(artist & artwork & Hp)];
      rewrite Hp in H; simpl in H.
    + injection H as <-. now elim Hnotes.
    + destruct artist as [|c artist]; simpl in H.
      { injection H as <-. now elim Hnotes. }
      destruct artwork as [|d artwork]; simpl in H.
      { injection H as <-. now elim Hnotes. }
      injection H as <-. exists (String c artist), (String d artwork).
      repeat split; try discriminate. exact Hp.
Qed.

Lemma empty_artwork_counts_as_failure_witness :
  process_file (create_art_model 1)
    {| deck := {| deck_id := 2; deck_name := "Art History Collection";
                  deck_notes := [] |};
       parsed_count := 0; failed_count := 0; stdout := [] |}
    "Claude-Monet-.jpg"
  = Returns
      {| deck := {| deck_id := 2; deck_name := "Art History Collection";
                    deck_notes := [] |};
         parsed_count := 0; failed_count := 1;
         stdout := ["Failed to parse: Claude-Monet-.jpg"] |}.
Proof.
  exact (proj1 (proj2 empty_artwork_counts_as_failure) _ _
           "Claude-Monet-.jpg" "Claude Monet"
           (proj1 empty_artwork_counts_as_failure)).
Defined.

(** C10: the media files of the package are the paths of all the files of
    the listing whose lowercased name ends in one of the five extensions,
    whether a card was made of them or not; the other files of the listing
    change nothing of the run. *)
Theorem media_files_are_all_images (listing : list string) :
  exists run : Run,
    generate_anki_deck drawn_model_id drawn_deck_id listing art_folder
      output_file = Returns run
    /\ media_files (snd (run_written run))
       = map (Py.path_join art_folder) (filter is_image listing)
    /\ (forall file : string,
          In file listing ->
          (exists ext, In ext [".jpg"; ".jpeg"; ".png"; ".gif"; ".bmp"]
                       /\ Py.endswith (Py.lower file) ext = true) ->
          In (Py.path_join art_folder file)
             (media_files (snd (run_written run))))
    /\ (forall file : string,
          (forall ext, In ext [".jpg"; ".jpeg"; ".png"; ".gif"; ".bmp"] ->
                       Py.endswith (Py.lower file) ext = false) ->
          is_image file = false)
    /\ generate_anki_deck drawn_model_id drawn_deck_id
         (filter is_image listing) art_folder output_file = Returns run.
Proof.
  eexists. split; [apply generate_anki_deck_run|]. simpl.
  split; [reflexivity|split; [|split]].
  - intros file Hin (ext & Hext & Hends).
    apply in_map, filter_In. split; [exact Hin|].
    unfold is_image. apply existsb_exists. now exists ext.
  - intros file Hnone. unfold is_image.
    destruct (existsb _ image_extensions) eqn:E; [|reflexivity].
    apply existsb_exists in E. destruct E as (ext & Hext & Hends).
    now rewrite (Hnone ext Hext) in Hends.
  - rewrite generate_anki_deck_run. now rewrite filter_idempotent.
Qed.

End Run.

(** ** Names of exactly two segments *)

Lemma parse_parts_two (a b : string) :
  parse_parts compound_artists [a; b]
  = if Py.contains artwork_indicators (Py.lower b)
    then Returns (Some (field_of [a]), Some (field_of [b]))
    else Returns (None, None).
Proof.
  unfold parse_parts.
  rewrite (match_compound_two _ a b compound_lengths).
  cbn [List.length Nat.ltb Nat.leb try_lengths firstn skipn Py.truthy_list
       Py.index0 bind Nat.eqb].
  rewrite !orb_false_r.
  now destruct (Py.contains artwork_indicators (Py.lower b)).
Qed.


Lemma lower_letter_origin (c : ascii) :
  lower_letter (Py.lower_char c) = true ->
  negb (Py.isspace c) && negb (Ascii.eqb c "_") = true.
Proof.
  destruct c as [[] [] [] [] [] [] [] []]; vm_compute;
    intros H; solve [reflexivity | discriminate H].
Qed.


Lemma lower_letters_origin (s : string) :
  lower_letters (Py.lower s) = true -> plain s = true.
Proof.
  induction s as [|c s IH]; simpl; [reflexivity|].
  intros H. apply andb_prop in H. destruct H as [Hc Hs].
  now rewrite (lower_letter_origin c Hc), (IH Hs).
Qed.

Lemma indicators_lower_letters :
  forallb lower_letters artwork_indicators = true.
Proof. vm_compute. reflexivity. Qed.

Lemma indicator_is_plain (s : string) :
  Py.contains artwork_indicators (Py.lower s) = true -> plain s = true.
Proof.
  unfold Py.contains. intros H.
  apply existsb_exists in H. destruct H as (w & Hin & Heq).
  apply String.eqb_eq in Heq. apply lower_letters_origin. rewrite Heq.
  pose proof indicators_lower_letters as Hall.
  rewrite forallb_forall in Hall. now apply Hall.
Qed.

(** Splits a hypothesis [plain (String c s) = true] into what it says of
    [c] and of [s]. *)
Ltac plain_head H Hspace Hunder Hs :=
  simpl in H;
  apply andb_prop in H; destruct H as [H Hs];
  apply andb_prop in H; destruct H as [Hspace Hunder];
  apply negb_true_iff in Hspace; apply negb_true_iff in Hunder.

Lemma replace_plain (s : string) :
  plain s = true -> Py.replace "_" " " s = s.
Proof.
  induction s as [|c s IH]; intros H; simpl; [reflexivity|].
  plain_head H Hspace Hunder Hs. now rewrite Hunder, IH.
Qed.

Lemma lstrip_plain (s : string) : plain s = true -> Py.lstrip s = s.
Proof.
  destruct s as [|c s]; intros H; simpl; [reflexivity|].
  plain_head H Hspace Hunder Hs. now rewrite Hspace.
Qed.

Lemma rstrip_plain (s : string) : plain s = true -> Py.rstrip s = s.
Proof.
  induction s as [|c s IH]; intros H; simpl; [reflexivity|].
  plain_head H Hspace Hunder Hs. rewrite (IH Hs), Hspace. now destruct s.
Qed.

Lemma collapse_plain (s : string) :
  plain s = true -> Py.collapse_from false s = s.
Proof.
  induction s as [|c s IH]; intros H; simpl; [reflexivity|].
  plain_head H Hspace Hunder Hs. now rewrite Hspace, IH.
Qed.

Lemma field_of_plain (s : string) : plain s = true -> field_of [s] = s.
Proof.
  intros H. unfold field_of, Py.strip, Py.re_sub_spaces. simpl Py.join.
  now rewrite (replace_plain s H), (lstrip_plain s H), (rstrip_plain s H),
    (collapse_plain s H).
Qed.




(** ** The compound artists *)

(** C1, as the code has it: when the leading segments of the name are the
    segments of an entry of the table whose recorded length is its number
    of segments, and at least one more segment follows, the artist is the
    entry with its dashes turned into spaces (and the artwork is made of
    the segments that follow). *)
Theorem compound_artist_is_recognised
  (filename compound_name : string) (count : nat) :
  In (compound_name, count) compound_artists ->
  List.length (Py.split "-" compound_name) = count ->
  firstn count (name_parts filename) = Py.split "-" compound_name ->
  skipn count (name_parts filename) <> [] ->
  parse_filename filename
  = Returns (Some (Py.replace "-" " " compound_name),
             Some (field_of (skipn count (name_parts filename)))).
Proof.
  intros Hin Hcount Hprefix Hrest.
  unfold parse_filename, parse_filename_in.
  pose proof (firstn_skipn count (name_parts filename)) as Hparts.
  destruct (skipn count (name_parts filename)) as [|r rs]; [now elim Hrest|].
  rewrite Hprefix in Hparts. rewrite <- Hparts. clear Hparts Hprefix Hrest.
  simpl in Hin.
  repeat (destruct Hin as [Hin|Hin];
          [injection Hin as <- <-; try discriminate Hcount; reflexivity|]).
  contradiction.
Qed.

Lemma compound_artist_is_recognised_witness :
  parse_filename "Diego-Velazquez-Las-Meninas--S.jpg"
  = Returns (Some (Py.replace "-" " " "Diego-Velazquez"),
             Some (field_of
                     (skipn 2 (name_parts "Diego-Velazquez-Las-Meninas--S.jpg")))).
Proof.
  apply (compound_artist_is_recognised
           "Diego-Velazquez-Las-Meninas--S.jpg" "Diego-Velazquez" 2).
  - simpl. tauto.
  - reflexivity.
  - reflexivity.
  - vm_compute. discriminate.
Defined.

(** C1, as the specification states it, does not hold: a name that is a
    compound artist and nothing more gives no artist at all. *)
Lemma compound_artist_alone_is_not_parsed :
  In ("Diego-Velazquez", 2) compound_artists
  /\ firstn 2 (name_parts "Diego-Velazquez.jpg")
     = Py.split "-" "Diego-Velazquez"
  /\ parse_filename "Diego-Velazquez.jpg" = Returns (None, None)
  /\ (forall artwork : option string,
        parse_filename "Diego-Velazquez.jpg"
        <> Returns (Some (Py.replace "-" " " "Diego-Velazquez"), artwork)).
Proof.
  split; [simpl; tauto|].
  split; [reflexivity|]. split; [reflexivity|].
  intros artwork. vm_compute. discriminate.
Qed.

(** The entry of six segments is recorded with length 5 and is never
    matched: such a name goes to the trial lengths. *)
Lemma six_segment_entry_is_missed :
  In ("Diego-Rodriguez-De-Silva-Y-Velazquez", 5) compound_artists
  /\ List.length (Py.split "-" "Diego-Rodriguez-De-Silva-Y-Velazquez") = 6
  /\ parse_filename "Diego-Rodriguez-De-Silva-Y-Velazquez-Las-Meninas.jpg"
     = Returns (Some "Diego Rodriguez",
                Some "De Silva Y Velazquez Las Meninas").
Proof.
  split; [simpl; tauto|]. repeat split.
Qed.

(** ** Segments have no separator in them *)

Lemma split_not_nil (sep : ascii) (s : string) : Py.split sep s <> [].
Proof.
  destruct s as [|c s]; simpl; [discriminate|].
  destruct (Ascii.eqb c sep); [discriminate|].
  destruct (Py.split sep s); discriminate.
Qed.

Lemma split_free (sep : ascii) (s : string) :
  Forall (fun p => occurs sep p = false) (Py.split sep s).
Proof.
  induction s as [|c s IH]; simpl.
  - now constructor.
  - destruct (Ascii.eqb c sep) eqn:Hc.
    + now constructor.
    + destruct (Py.split sep s) as [|p ps].
      * constructor; [simpl; now rewrite Hc|constructor].
      * inversion IH as [|? ? Hp Hps]; subst.
        constructor; [simpl; now rewrite Hc, Hp|exact Hps].
Qed.

Lemma split_keeps_free (d sep : ascii) (s : string) :
  occurs d s = false ->
  Forall (fun p => occurs d p = false) (Py.split sep s).
Proof.
  induction s as [|c s IH]; simpl; intros H.
  - now constructor.
  - apply orb_false_iff in H. destruct H as [Hc Hs]. specialize (IH Hs).
    destruct (Ascii.eqb c sep).
    + now constructor.
    + destruct (Py.split sep s) as [|p ps].
      * constructor; [simpl; now rewrite Hc|constructor].
      * inversion IH as [|? ? Hp Hps]; subst.
        constructor; [simpl; now rewrite Hc, Hp|exact Hps].
Qed.

Lemma split_single_free (sep : ascii) (s : string) :
  List.length (Py.split sep s) < 2 -> occurs sep s = false.
Proof.
  induction s as [|c s IH]; simpl; [reflexivity|].
  pose proof (split_not_nil sep s) as Hne.
  destruct (Ascii.eqb c sep); simpl.
  - destruct (Py.split sep s); simpl; [contradiction|intros H; lia].
  - destruct (Py.split sep s) as [|p ps]; [contradiction|].
    simpl in *. exact IH.
Qed.

Lemma segments_free (name : string) :
  Forall (fun p => occurs "-" p = false) (segments_of name).
Proof.
  unfold segments_of.
  destruct (List.length (Py.split "-" name) <? 2) eqn:Hlen.
  - apply split_keeps_free, split_single_free. now apply Nat.ltb_lt.
  - apply split_free.
Qed.

Lemma split_free_string (sep : ascii) (x : string) :
  occurs sep x = false -> Py.split sep x = [x].
Proof.
  induction x as [|c x IH]; simpl; [reflexivity|].
  intros H. apply orb_false_iff in H. destruct H as [Hc Hx].
  now rewrite Hc, (IH Hx).
Qed.

Lemma split_append (sep : ascii) (x y : string) :
  occurs sep x = false ->
  Py.split sep (x ++ String sep y)%string = x :: Py.split sep y.
Proof.
  induction x as [|c x IH]; simpl.
  - now rewrite Ascii.eqb_refl.
  - intros H. apply orb_false_iff in H. destruct H as [Hc Hx].
    now rewrite Hc, (IH Hx).
Qed.

Lemma split_join (sep : ascii) (l : list string) :
  Forall (fun p => occurs sep p = false) l ->
  l <> [] ->
  Py.split sep (Py.join (String sep EmptyString) l) = l.
Proof.
  induction 1 as [|x l Hx Hl IH]; intros Hne; [now elim Hne|].
  destruct l as [|y l].
  - simpl. now apply split_free_string.
  - change (Py.join (String sep EmptyString) (x :: y :: l))
      with (x ++ String sep (Py.join (String sep EmptyString) (y :: l)))%string.
    rewrite (split_append sep x _ Hx). f_equal. apply IH. discriminate.
Qed.

(** ** The order of the dictionary does not matter *)


Lemma match_compound_find (table : list (string * nat)) (parts : list string) :
  match_compound table parts
  = option_map (hit_fields parts) (find (hit parts) table).
Proof.
  induction table as [|[name n] table IH]; simpl; [reflexivity|].
  unfold hit at 1. simpl.
  destruct (String.eqb _ name); simpl; [|exact IH].
  destruct (Py.truthy_list (skipn n parts)); [reflexivity|exact IH].
Qed.

Lemma find_permutation {A : Type} (p : A -> bool) (l l' : list A) :
  (forall x y, In x l -> In y l -> p x = true -> p y = true -> x = y) ->
  Permutation l l' ->
  find p l = find p l'.
Proof.
  intros Huniq Hperm.
  destruct (find p l) as [x|] eqn:Hl; destruct (find p l') as [y|] eqn:Hl';
    try reflexivity.
  - apply find_some in Hl, Hl'. destruct Hl as [Hx Hpx], Hl' as [Hy Hpy].
    f_equal. apply Huniq; try assumption.
    now apply (Permutation_in y (Permutation_sym Hperm)).
  - apply find_some in Hl. destruct Hl as [Hx Hpx].
    pose proof (find_none p l' Hl' x (Permutation_in x Hperm Hx)) as Hno.
    congruence.
  - apply find_some in Hl'. destruct Hl' as [Hy Hpy].
    pose proof (find_none p l Hl y
                  (Permutation_in y (Permutation_sym Hperm) Hy)) as Hno.
    congruence.
Qed.

Lemma hit_first_two (parts : list string) (entry : string * nat) :
  Forall (fun p => occurs "-" p = false) parts ->
  2 <= List.length parts ->
  2 <= snd entry ->
  hit parts entry = true ->
  firstn 2 parts = firstn 2 (Py.split "-" (fst entry)).
Proof.
  intros Hfree Hlen Hn Hhit. unfold hit in Hhit.
  apply andb_prop in Hhit. destruct Hhit as [Hjoin _].
  apply String.eqb_eq in Hjoin. rewrite <- Hjoin.
  rewrite <- (firstn_skipn (snd entry) parts) in Hfree.
  apply Forall_app in Hfree. destruct Hfree as [Hfree _].
  change "-"%string with (String "-"%char EmptyString).
  rewrite (split_join "-" _ Hfree).
  - rewrite firstn_firstn. now rewrite (Nat.min_l 2 (snd entry) Hn).
  - destruct parts as [|a parts]; simpl in Hlen; [lia|].
    destruct (snd entry); [lia|discriminate].
Qed.

Lemma compound_first_two_distinct (e1 e2 : string * nat) :
  In e1 compound_artists ->
  In e2 compound_artists ->
  firstn 2 (Py.split "-" (fst e1)) = firstn 2 (Py.split "-" (fst e2)) ->
  e1 = e2.
Proof.
  simpl. intros H1 H2.
  repeat (destruct H1 as [<-|H1]); try contradiction;
    repeat (destruct H2 as [<-|H2]); try contradiction;
    vm_compute; intros H; solve [reflexivity | discriminate H].
Qed.

Lemma hit_unique (parts : list string) (e1 e2 : string * nat) :
  Forall (fun p => occurs "-" p = false) parts ->
  2 <= List.length parts ->
  In e1 compound_artists ->
  In e2 compound_artists ->
  hit parts e1 = true ->
  hit parts e2 = true ->
  e1 = e2.
Proof.
  intros Hfree Hlen H1 H2 Hit1 Hit2.
  pose proof compound_lengths as Hall. rewrite Forall_forall in Hall.
  apply compound_first_two_distinct; try assumption.
  rewrite <- (hit_first_two parts e1 Hfree Hlen (Hall e1 H1) Hit1).
  now apply hit_first_two; auto.
Qed.

Lemma parse_filename_in_order (filename : string)
  (order : list (string * nat)) :
  Permutation order compound_artists ->
  parse_filename_in order filename = parse_filename filename.
Proof.
  intros Hperm. unfold parse_filename, parse_filename_in, parse_parts.
  destruct (List.length (name_parts filename) <? 2) eqn:Hlen;
    [reflexivity|].
  apply Nat.ltb_ge in Hlen.
  rewrite !match_compound_find.
  rewrite (find_permutation (hit (name_parts filename))
             compound_artists order); [reflexivity| |].
  - intros x y Hx Hy Hpx Hpy.
    apply (hit_unique (name_parts filename)); try assumption.
    apply segments_free.
  - now apply Permutation_sym.
Qed.

(** C7: the result is a function of the file name alone: two calls on the
    same name return the same result, in whatever order each of them
    goes through the dictionary of compound artists. *)
Theorem parse_filename_deterministic (filename : string)
  (order1 order2 : list (string * nat))
  (result1 result2 : outcome (option string * option string)) :
  Permutation order1 compound_artists ->
  Permutation order2 compound_artists ->
  parse_filename_in order1 filename = result1 ->
  parse_filename_in order2 filename = result2 ->
  result1 = result2.
Proof.
  intros H1 H2 <- <-.
  now rewrite (parse_filename_in_order filename order1 H1),
    (parse_filename_in_order filename order2 H2).
Qed.

Lemma parse_filename_deterministic_witness :
  parse_filename_in (rev compound_artists) "Michelangelo-Merisi-Bacchus.jpg"
  = parse_filename_in compound_artists "Michelangelo-Merisi-Bacchus.jpg".
Proof.
  apply (parse_filename_deterministic "Michelangelo-Merisi-Bacchus.jpg"
           (rev compound_artists) compound_artists).
  - apply Permutation_sym, Permutation_rev.
  - apply Permutation_refl.
  - reflexivity.
  - reflexivity.
Defined.

(** ** What decides the split *)

(** X3: the trial length 3 never decides: a name that has three segments is
    already split by the trial length 2. *)
Theorem trial_length_three_never_decides (parts : list string) :
  try_lengths [2; 3; 1] parts = try_lengths [2; 1] parts.
Proof.
  destruct parts as [|a [|b [|c rest]]]; try reflexivity.
  cbn [try_lengths List.length Nat.leb firstn skipn Py.truthy_list
       Py.index0 bind Nat.eqb].
  now rewrite !orb_true_r.
Qed.

(** X1: a name of exactly two segments is parsed exactly when its second
    segment is a title indicator up to letter case; otherwise both fields
    are absent. *)
Theorem two_segments_need_indicator (filename a b : string) :
  name_parts filename = [a; b] ->
  parse_filename filename
  = if Py.contains artwork_indicators (Py.lower b)
    then Returns (Some (field_of [a]), Some b)
    else Returns (None, None).
Proof.
  unfold parse_filename, parse_filename_in. intros ->.
  rewrite parse_parts_two.
  destruct (Py.contains artwork_indicators (Py.lower b)) eqn:Hb;
    [|reflexivity].
  now rewrite (field_of_plain b (indicator_is_plain b Hb)).
Qed.

Lemma two_segments_need_indicator_witness :
  parse_filename "Monet-Waterlilies.jpg"
  = if Py.contains artwork_indicators (Py.lower "Waterlilies")
    then Returns (Some (field_of ["Monet"]), Some "Waterlilies")
    else Returns (None, None).
Proof.
  apply (two_segments_need_indicator "Monet-Waterlilies.jpg").
  reflexivity.
Defined.

Lemma hit_prefix (parts : list string) (entry : string * nat) :
  Forall (fun p => occurs "-" p = false) parts ->
  parts <> [] ->
  1 <= snd entry ->
  hit parts entry = true ->
  firstn (snd entry) parts = Py.split "-" (fst entry).
Proof.
  intros Hfree Hne Hn Hhit. unfold hit in Hhit.
  apply andb_prop in Hhit. destruct Hhit as [Hjoin _].
  apply String.eqb_eq in Hjoin. rewrite <- Hjoin.
  rewrite <- (firstn_skipn (snd entry) parts) in Hfree.
  apply Forall_app in Hfree. destruct Hfree as [Hfree _].
  change "-"%string with (String "-"%char EmptyString).
  rewrite (split_join "-" _ Hfree); [reflexivity|].
  destruct parts as [|a parts]; [now elim Hne|].
  destruct (snd entry); [lia|discriminate].
Qed.

(** X2: a name of three segments or more whose leading segments are those of
    no compound artist is split after its second segment. *)
Theorem unknown_artist_is_two_segments (filename : string) :
  3 <= List.length (name_parts filename) ->
  (forall compound_name count,
      In (compound_name, count) compound_artists ->
      firstn count (name_parts filename) <> Py.split "-" compound_name) ->
  parse_filename filename
  = Returns (Some (field_of (firstn 2 (name_parts filename))),
             Some (field_of (skipn 2 (name_parts filename)))).
Proof.
  intros Hlen Hnone.
  unfold parse_filename, parse_filename_in, parse_parts.
  replace (List.length (name_parts filename) <? 2) with false
    by (symmetry; apply Nat.ltb_ge; lia).
  rewrite match_compound_find.
  destruct (find (hit (name_parts filename)) compound_artists)
    as [[name count]|] eqn:Hfind.
  - apply find_some in Hfind. destruct Hfind as [Hin Hhit].
    elim (Hnone name count Hin).
    apply (hit_prefix _ (name, count)); try assumption.
    + apply segments_free.
    + intros Hnil. rewrite Hnil in Hlen. simpl in Hlen. lia.
    + pose proof compound_lengths as Hall. rewrite Forall_forall in Hall.
      specialize (Hall _ Hin). simpl in *. lia.
  - simpl option_map. cbv iota. now rewrite (try_lengths_three _ Hlen).
Qed.

Lemma unknown_artist_is_two_segments_witness :
  parse_filename "Jan-Van-Eyck-Arnolfini-Portrait.jpg"
  = Returns
      (Some (field_of (firstn 2 (name_parts "Jan-Van-Eyck-Arnolfini-Portrait.jpg"))),
       Some (field_of (skipn 2 (name_parts "Jan-Van-Eyck-Arnolfini-Portrait.jpg")))).
Proof.
  apply (unknown_artist_is_two_segments "Jan-Van-Eyck-Arnolfini-Portrait.jpg").
  - vm_compute. lia.
  - intros compound_name count Hin. simpl in Hin.
    repeat (destruct Hin as [Hin|Hin];
            [injection Hin as <- <-; vm_compute; discriminate|]).
    contradiction.
Defined.

(** ** The fields that parse_filename returns *)

Lemma occurs_append (c : ascii) (x y : string) :
  occurs c (x ++ y) = occurs c x || occurs c y.
Proof.
  induction x as [|d x IH]; simpl; [reflexivity|].
  now rewrite IH, orb_assoc.
Qed.

Lemma occurs_cons (c d : ascii) (s : string) :
  occurs c (String d s) = Ascii.eqb d c || occurs c s.
Proof. reflexivity. Qed.

Lemma occurs_join (c : ascii) (l : list string) :
  Ascii.eqb " " c = false ->
  Forall (fun p => occurs c p = false) l ->
  occurs c (Py.join " " l) = false.
Proof.
  intros Hc. induction 1 as [|x l Hx Hl IH]; [reflexivity|].
  destruct l as [|y l]; [exact Hx|].
  change (Py.join " " (x :: y :: l))
    with (x ++ String " " (Py.join " " (y :: l)))%string.
  now rewrite occurs_append, Hx, occurs_cons, Hc, IH.
Qed.

Lemma occurs_replaced (a b c : ascii) (s : string) :
  Ascii.eqb b c = false ->
  occurs c s = false ->
  occurs c (Py.replace a b s) = false.
Proof.
  intros Hb. induction s as [|d s IH]; simpl; [reflexivity|].
  intros H. apply orb_false_iff in H. destruct H as [Hd Hs].
  rewrite (IH Hs). now destruct (Ascii.eqb d a); rewrite ?Hb, ?Hd.
Qed.

Lemma occurs_replace_gone (a b : ascii) (s : string) :
  Ascii.eqb b a = false -> occurs a (Py.replace a b s) = false.
Proof.
  intros Hb. induction s as [|d s IH]; simpl; [reflexivity|].
  rewrite IH. now destruct (Ascii.eqb d a) eqn:Hd; rewrite ?Hb, ?Hd.
Qed.

Lemma occurs_lstrip (c : ascii) (s : string) :
  occurs c s = false -> occurs c (Py.lstrip s) = false.
Proof.
  induction s as [|d s IH]; simpl; [reflexivity|].
  intros H. destruct (Py.isspace d); [|exact H].
  apply orb_false_iff in H. now apply IH.
Qed.

Lemma occurs_rstrip (c : ascii) (s : string) :
  occurs c s = false -> occurs c (Py.rstrip s) = false.
Proof.
  induction s as [|d s IH]; simpl; [reflexivity|].
  intros H. apply orb_false_iff in H. destruct H as [Hd Hs].
  specialize (IH Hs). destruct (Py.rstrip s) as [|e r].
  - destruct (Py.isspace d); simpl; [reflexivity|now rewrite Hd].
  - simpl in *. now rewrite Hd.
Qed.

Lemma occurs_collapse (c : ascii) (s : string) (in_run : bool) :
  Ascii.eqb " " c = false ->
  occurs c s = false ->
  occurs c (Py.collapse_from in_run s) = false.
Proof.
  intros Hc. revert in_run.
  induction s as [|d s IH]; intros in_run H; [reflexivity|].
  rewrite occurs_cons in H. apply orb_false_iff in H. destruct H as [Hd Hs].
  cbn [Py.collapse_from].
  destruct (Py.isspace d); [destruct in_run|];
    rewrite ?occurs_cons, ?Hc, ?Hd; now apply IH.
Qed.

Lemma lstrip_start (s : string) : starts_with_space (Py.lstrip s) = false.
Proof.
  induction s as [|c s IH]; simpl; [reflexivity|].
  destruct (Py.isspace c) eqn:Hc; [exact IH|]. simpl. exact Hc.
Qed.

Lemma lstrip_fixed (s : string) :
  starts_with_space s = false -> Py.lstrip s = s.
Proof. destruct s as [|c s]; simpl; [reflexivity|]. now intros ->. Qed.

Lemma rstrip_start (s : string) :
  starts_with_space s = false -> starts_with_space (Py.rstrip s) = false.
Proof.
  destruct s as [|c s]; simpl; [reflexivity|]. intros Hc.
  destruct (Py.rstrip s); [rewrite Hc|]; simpl; now rewrite ?Hc.
Qed.

Lemma collapse_start (s : string) :
  starts_with_space s = false ->
  starts_with_space (Py.collapse_from false s) = false.
Proof.
  destruct s as [|c s]; simpl; [reflexivity|]. intros Hc.
  rewrite Hc. simpl. exact Hc.
Qed.

Lemma rstrip_cons (c : ascii) (r : string) :
  Py.rstrip r = r -> r <> EmptyString ->
  Py.rstrip (String c r) = String c r.
Proof. simpl. intros -> Hne. destruct r; [now elim Hne|reflexivity]. Qed.

Lemma rstrip_idempotent (s : string) :
  Py.rstrip (Py.rstrip s) = Py.rstrip s.
Proof.
  induction s as [|c s IH]; simpl; [reflexivity|].
  destruct (Py.rstrip s) as [|d r] eqn:Hr.
  - destruct (Py.isspace c) eqn:Hc; simpl; [reflexivity|now rewrite Hc].
  - apply rstrip_cons; [exact IH|discriminate].
Qed.

Lemma rstrip_fixed_tail (c : ascii) (s : string) :
  Py.rstrip (String c s) = String c s ->
  (s = EmptyString /\ Py.isspace c = false)
  \/ (s <> EmptyString /\ Py.rstrip s = s).
Proof.
  simpl. destruct (Py.rstrip s) as [|d r] eqn:Hr.
  - destruct (Py.isspace c); [discriminate|].
    intros H. injection H as <-. now left.
  - intros H. injection H as <-. right. split; [discriminate|reflexivity].
Qed.

Lemma collapse_not_empty (s : string) :
  Py.rstrip s = s -> s <> EmptyString ->
  forall in_run, Py.collapse_from in_run s <> EmptyString.
Proof.
  induction s as [|c s IH]; intros Hfix Hne in_run; [now elim Hne|].
  cbn [Py.collapse_from].
  destruct (Py.isspace c) eqn:Hc; [|discriminate].
  destruct in_run; [|discriminate].
  destruct (rstrip_fixed_tail c s Hfix) as [[_ Hc']|[Hs Hfix']];
    [congruence|]. now apply IH.
Qed.

Lemma rstrip_collapse (s : string) :
  Py.rstrip s = s ->
  forall in_run,
    Py.rstrip (Py.collapse_from in_run s) = Py.collapse_from in_run s.
Proof.
  induction s as [|c s IH]; intros Hfix in_run; [reflexivity|].
  destruct (rstrip_fixed_tail c s Hfix) as [[-> Hc]|[Hs Hfix']].
  - simpl. rewrite Hc. simpl. now rewrite Hc.
  - cbn [Py.collapse_from].
    destruct (Py.isspace c); [destruct in_run|].
    + now apply IH.
    + apply rstrip_cons; [now apply IH|now apply collapse_not_empty].
    + apply rstrip_cons; [now apply IH|now apply collapse_not_empty].
Qed.

Lemma collapse_idempotent (s : string) :
  (forall in_run,
      Py.collapse_from false (Py.collapse_from in_run s)
      = Py.collapse_from in_run s)
  /\ Py.collapse_from true (Py.collapse_from true s)
     = Py.collapse_from true s.
Proof.
  induction s as [|c s [IHany IHrun]]; [split; [intros []|]; reflexivity|].
  split.
  - intros in_run. simpl.
    destruct (Py.isspace c) eqn:Hc; [destruct in_run|].
    + apply IHany.
    + simpl. now rewrite IHrun.
    + simpl. now rewrite Hc, IHany.
  - simpl. destruct (Py.isspace c) eqn:Hc; [exact IHrun|].
    simpl. now rewrite Hc, IHany.
Qed.

Lemma replace_absent (a b : ascii) (s : string) :
  occurs a s = false -> Py.replace a b s = s.
Proof.
  induction s as [|c s IH]; simpl; [reflexivity|].
  intros H. apply orb_false_iff in H. destruct H as [Hc Hs].
  now rewrite Hc, (IH Hs).
Qed.

Lemma field_of_cleaned (segments : list string) : cleaned (field_of segments).
Proof.
  unfold cleaned, field_of, Py.strip, Py.re_sub_spaces.
  set (t := Py.replace "_" " " (Py.join " " segments)).
  split; [|split].
  - apply occurs_collapse; [reflexivity|].
    apply occurs_rstrip, occurs_lstrip. now apply occurs_replace_gone.
  - rewrite lstrip_fixed.
    + apply rstrip_collapse, rstrip_idempotent.
    + apply collapse_start, rstrip_start, lstrip_start.
  - apply (proj1 (collapse_idempotent _)).
Qed.

Lemma cleaned_fixed (s : string) : cleaned s -> field_of [s] = s.
Proof.
  intros (Hunder & Hstrip & Hspaces). unfold field_of. simpl Py.join.
  now rewrite (replace_absent _ _ s Hunder), Hstrip.
Qed.

Lemma field_of_free (segments : list string) :
  Forall (fun p => occurs "-" p = false) segments ->
  occurs "-" (field_of segments) = false.
Proof.
  intros Hfree. unfold field_of, Py.strip, Py.re_sub_spaces.
  apply occurs_collapse; [reflexivity|].
  apply occurs_rstrip, occurs_lstrip, occurs_replaced; [reflexivity|].
  now apply occurs_join.
Qed.

Lemma try_lengths_cut (lengths : list nat) (parts : list string)
  (r : string * string) :
  try_lengths lengths parts = Returns (Some r) ->
  exists n, r = (field_of (firstn n parts), field_of (skipn n parts)).
Proof.
  induction lengths as [|n lengths IH]; simpl; [discriminate|].
  destruct (n <=? List.length parts); [|exact IH].
  destruct (skipn n parts) as [|w ws] eqn:Hskip; simpl; [exact IH|].
  match goal with |- context [if ?c then _ else _] => destruct c end;
    [|exact IH].
  intros H. injection H as <-. exists n. now rewrite Hskip.
Qed.

Lemma parse_parts_cut (table : list (string * nat)) (parts : list string)
  (artist artwork : string) :
  parse_parts table parts = Returns (Some artist, Some artwork) ->
  exists n, artist = field_of (firstn n parts)
            /\ artwork = field_of (skipn n parts).
Proof.
  unfold parse_parts.
  destruct (List.length parts <? 2); [discriminate|].
  rewrite match_compound_find.
  destruct (find (hit parts) table) as [[name n]|]; cbn [option_map].
  { unfold both, hit_fields. cbn [fst snd].
    intros H. injection H as <- <-. now exists n. }
  destruct (try_lengths [2; 3; 1] parts) as [[r|]|e] eqn:Htry;
    cbn [bind]; try discriminate.
  - destruct (try_lengths_cut _ _ _ Htry) as (n & ->).
    unfold both. cbn [fst snd].
    intros H. injection H as <- <-. now exists n.
  - unfold fallback. destruct (3 <=? List.length parts); [|discriminate].
    intros H. injection H as <- <-. now exists 2.
Qed.

Lemma parsed_fields_are_cleaned_parts (filename artist artwork : string) :
  parse_filename filename = Returns (Some artist, Some artwork) ->
  cleaned artist /\ cleaned artwork.
Proof.
  intros H. apply parse_parts_cut in H. destruct H as (n & -> & ->).
  split; apply field_of_cleaned.
Qed.

(** X4: every field that parse_filename returns is cleaned: it has no
    underscore and no dash, no whitespace at either end, and only single
    spaces inside; cleaning it again leaves it as it is. *)
Theorem parsed_fields_are_cleaned (filename artist artwork : string) :
  parse_filename filename = Returns (Some artist, Some artwork) ->
  (cleaned artist /\ occurs "-" artist = false
   /\ field_of [artist] = artist)
  /\ (cleaned artwork /\ occurs "-" artwork = false
      /\ field_of [artwork] = artwork).
Proof.
  intros H. apply parse_parts_cut in H. destruct H as (n & -> & ->).
  pose proof (segments_free (stem filename)) as Hfree.
  fold (name_parts filename) in Hfree.
  rewrite <- (firstn_skipn n (name_parts filename)) in Hfree.
  apply Forall_app in Hfree. destruct Hfree as [Hfirst Hrest].
  split; (split; [apply field_of_cleaned|split;
                  [now apply field_of_free
                  |apply cleaned_fixed, field_of_cleaned]]).
Qed.

Lemma parsed_fields_are_cleaned_witness :
  (cleaned "Jan Van Eyck" /\ occurs "-" "Jan Van Eyck" = false
   /\ field_of ["Jan Van Eyck"] = "Jan Van Eyck")
  /\ (cleaned "Arnolfini Portrait"
      /\ occurs "-" "Arnolfini Portrait" = false
      /\ field_of ["Arnolfini Portrait"] = "Arnolfini Portrait").
Proof.
  apply (parsed_fields_are_cleaned "Jan_-_Van__Eyck-Arnolfini_Portrait--S.png").
  reflexivity.
Defined.

(** ** The deck and the package of a run *)

Lemma yields_card_fields (model : Model) (filename : string) :
  yields_card filename = true ->
  exists artist artwork,
    parse_filename filename = Returns (Some artist, Some artwork)
    /\ artist <> EmptyString /\ artwork <> EmptyString
    /\ card_of model filename = make_note model filename artist artwork.
Proof.
  unfold yields_card, card_of.
  destruct (parse_filename_total filename) as [->|(artist & artwork & ->)];
    [discriminate|].
  intros H. apply andb_prop in H. destruct H as [Ha Hw].
  exists artist, artwork. repeat split.
  - intros ->. discriminate.
  - intros ->. discriminate.
Qed.

Lemma collapse_length (s : string) (in_run : bool) :
  String.length (Py.collapse_from in_run s) <= String.length s.
Proof.
  revert in_run. induction s as [|c s IH]; intros in_run; simpl; [lia|].
  destruct (Py.isspace c); [destruct in_run|]; simpl;
    [specialize (IH true)|specialize (IH true)|specialize (IH false)]; lia.
Qed.

Lemma collapse_fixed_spaces (s : string) (in_run : bool) :
  Py.collapse_from in_run s = s -> plain_spaces s = true.
Proof.
  revert in_run. induction s as [|c s IH]; intros in_run; [reflexivity|].
  cbn [Py.collapse_from plain_spaces].
  destruct (Py.isspace c); [destruct in_run|].
  - intros H. pose proof (collapse_length s true) as Hlen.
    rewrite H in Hlen. simpl in Hlen. lia.
  - intros H. injection H as <- H. now rewrite (IH true H).
  - intros H. injection H as H. now rewrite (IH false H).
Qed.

Lemma lower_char_space (c : ascii) :
  Py.isspace (Py.lower_char c) = Py.isspace c.
Proof. destruct c as [[] [] [] [] [] [] [] []]; reflexivity. Qed.

Lemma tag_spaceless (artist : string) :
  plain_spaces artist = true ->
  spaceless (Py.lower (Py.replace " " "_" artist)) = true.
Proof.
  induction artist as [|c artist IH]; [reflexivity|].
  cbn [plain_spaces Py.replace Py.lower spaceless].
  intros H. apply andb_prop in H. destruct H as [Hc Hrest].
  rewrite (IH Hrest), andb_true_r, lower_char_space.
  destruct (Ascii.eqb c " ") eqn:Hsp; [reflexivity|].
  now rewrite orb_false_r in Hc.
Qed.

Lemma filter_permutation {A : Type} (p : A -> bool) (l l' : list A) :
  Permutation l l' -> Permutation (filter p l) (filter p l').
Proof.
  induction 1 as [|x l l' _ IH|x y l|l l' l'' _ IH1 _ IH2]; simpl.
  - constructor.
  - destruct (p x); [now constructor|exact IH].
  - destruct (p x), (p y); try apply Permutation_refl. apply perm_swap.
  - now apply (Permutation_trans IH1).
Qed.

Lemma path_join_relative (a b : string) :
  relative b = true ->
  Py.path_join a b
  = if String.eqb a EmptyString || Py.endswith a "/" then (a ++ b)%string
    else (a ++ "/" ++ b)%string.
Proof.
  destruct b as [|c b]; [reflexivity|].
  destruct c as [[] [] [] [] [] [] [] []]; try reflexivity.
  discriminate.
Qed.

Lemma append_cancel (a x y : string) : (a ++ x = a ++ y)%string -> x = y.
Proof.
  induction a as [|c a IH]; simpl; [trivial|].
  intros H. injection H as H. now apply IH.
Qed.

Lemma path_join_injective (a f g : string) :
  relative f = true -> relative g = true ->
  Py.path_join a f = Py.path_join a g -> f = g.
Proof.
  intros Hf Hg. rewrite (path_join_relative a f Hf), (path_join_relative a g Hg).
  destruct (String.eqb a EmptyString || Py.endswith a "/"); intros H.
  - now apply append_cancel in H.
  - apply append_cancel in H. now injection H.
Qed.

Lemma map_no_dup {A B : Type} (f : A -> B) (l : list A) :
  (forall x y, In x l -> In y l -> f x = f y -> x = y) ->
  NoDup l -> NoDup (map f l).
Proof.
  intros Hinj. induction 1 as [|x l Hx Hl IH]; simpl; constructor.
  - intros Hin. apply in_map_iff in Hin. destruct Hin as (y & Hy & Hyl).
    apply Hx. rewrite (Hinj x y); simpl; auto.
  - apply IH. intros y z Hy Hz. apply Hinj; simpl; auto.
Qed.

Section Package.

Variables drawn_model_id drawn_deck_id : Z.
Variables art_folder output_file : string.

(** X6: the deck has one note for each image that parses to two non-empty
    fields, in the order of the listing, and as many notes as the count
    of parsed files returned; each note is of the model created for the
    run, has as many fields as that model declares, and carries the image
    reference, the artist and the artwork of its file. *)
Theorem notes_are_the_parsed_images (listing : list string) :
  exists run : Run,
    generate_anki_deck drawn_model_id drawn_deck_id listing art_folder
      output_file = Returns run
    /\ let notes := deck_notes (package_deck (snd (run_written run))) in
       List.length notes = fst (run_returned run)
       /\ map (fun note => hd EmptyString (note_fields note)) notes
          = map image_field (filter yields_card (filter is_image listing))
       /\ Forall
            (fun note =>
               note_model note = create_art_model drawn_model_id
               /\ List.length (note_fields note)
                  = List.length (model_fields (note_model note))
               /\ exists filename artist artwork,
                    In filename listing
                    /\ is_image filename = true
                    /\ parse_filename filename
                       = Returns (Some artist, Some artwork)
                    /\ artist <> EmptyString /\ artwork <> EmptyString
                    /\ note_fields note
                       = [image_field filename; artist; artwork])
            notes.
Proof.
  eexists. split; [apply generate_anki_deck_run|].
  cbn [run_of run_written snd package_deck deck_notes run_returned fst].
  split; [apply length_map|]. split.
  - rewrite map_map. apply map_ext_in. intros filename Hin.
    apply filter_In in Hin. destruct Hin as [_ Hcard].
    destruct (yields_card_fields (create_art_model drawn_model_id)
                filename Hcard) as (artist & artwork & _ & _ & _ & ->).
    reflexivity.
  - apply Forall_forall. intros note Hin.
    apply in_map_iff in Hin. destruct Hin as (filename & <- & Hin).
    apply filter_In in Hin. destruct Hin as [Hin Hcard].
    apply filter_In in Hin. destruct Hin as [Hin Himage].
    destruct (yields_card_fields (create_art_model drawn_model_id)
                filename Hcard) as (artist & artwork & Hp & Ha & Hw & ->).
    split; [reflexivity|]. split; [reflexivity|].
    exists filename, artist, artwork. repeat split; assumption.
Qed.

(** X7: the image that a note refers to is among the media files of the
    package. *)
Theorem every_card_image_is_bundled (listing : list string) :
  exists run : Run,
    generate_anki_deck drawn_model_id drawn_deck_id listing art_folder
      output_file = Returns run
    /\ Forall
         (fun note =>
            exists filename,
              hd EmptyString (note_fields note) = image_field filename
              /\ In (Py.path_join art_folder filename)
                    (media_files (snd (run_written run))))
         (deck_notes (package_deck (snd (run_written run)))).
Proof.
  eexists. split; [apply generate_anki_deck_run|].
  cbn [run_of run_written snd package_deck deck_notes media_files].
  apply Forall_forall. intros note Hin.
  apply in_map_iff in Hin. destruct Hin as (filename & <- & Hin).
  apply filter_In in Hin. destruct Hin as [Hin Hcard].
  destruct (yields_card_fields (create_art_model drawn_model_id)
              filename Hcard) as (artist & artwork & _ & _ & _ & ->).
  exists filename. split; [reflexivity|]. now apply in_map.
Qed.

(** X8: no tag of a note has whitespace in it: the first tag is the artist
    in lowercase with its spaces turned into underscores, after the
    prefix, and the second is a constant. *)
Theorem tags_have_no_whitespace (listing : list string) :
  exists run : Run,
    generate_anki_deck drawn_model_id drawn_deck_id listing art_folder
      output_file = Returns run
    /\ Forall
         (fun note =>
            Forall (fun tag => spaceless tag = true) (note_tags note)
            /\ exists artist,
                 nth 1 (note_fields note) EmptyString = artist
                 /\ note_tags note
                    = [ ("art_" ++ Py.lower (Py.replace " " "_" artist))%string;
                        "art_history" ])
         (deck_notes (package_deck (snd (run_written run)))).
Proof.
  eexists. split; [apply generate_anki_deck_run|].
  cbn [run_of run_written snd package_deck deck_notes].
  apply Forall_forall. intros note Hin.
  apply in_map_iff in Hin. destruct Hin as (filename & <- & Hin).
  apply filter_In in Hin. destruct Hin as [Hin Hcard].
  destruct (yields_card_fields (create_art_model drawn_model_id)
              filename Hcard) as (artist & artwork & Hp & _ & _ & ->).
  split; [|exists artist; split; reflexivity].
  destruct (parsed_fields_are_cleaned_parts filename artist artwork Hp)
    as [(_ & _ & Hspaces) _].
  cbn [make_note note_tags]. repeat constructor.
  cbn [String.append spaceless]. 
  apply tag_spaceless. eapply collapse_fixed_spaces. exact Hspaces.
Qed.

End Package.

Section Listing.

Variables drawn_model_id drawn_deck_id : Z.
Variables art_folder output_file : string.

(** X9: a folder with no image in it still gives a package: a deck with no
    note, no media file, both counts zero, and the four lines of a run
    with nothing reported as failed. *)
Theorem folder_without_images (listing : list string) :
  (forall file, In file listing -> is_image file = false) ->
  generate_anki_deck drawn_model_id drawn_deck_id listing art_folder
    output_file
  = Returns
      {| run_stdout :=
           [ "Found 0 image files";
             "Successfully parsed: 0";
             "Failed to parse: 0";
             ("Anki deck saved as: " ++ output_file)%string ];
         run_written :=
           (output_file,
            {| package_deck :=
                 {| deck_id := drawn_deck_id;
                    deck_name := "Art History Collection";
                    deck_notes := [] |};
               media_files := [] |});
         run_returned := (0, 0) |}.
Proof.
  intros Hnone. rewrite generate_anki_deck_run.
  replace (filter is_image listing) with (@nil string); [reflexivity|].
  symmetry. induction listing as [|file files IH]; [reflexivity|].
  simpl. rewrite (Hnone file (or_introl eq_refl)).
  apply IH. intros f Hf. apply Hnone. now right.
Qed.

(** X10: distinct names of the folder give distinct media paths. *)
Theorem media_paths_are_distinct (listing : list string) :
  NoDup listing ->
  (forall file, In file listing -> relative file = true) ->
  exists run : Run,
    generate_anki_deck drawn_model_id drawn_deck_id listing art_folder
      output_file = Returns run
    /\ NoDup (media_files (snd (run_written run))).
Proof.
  intros Hdistinct Hrelative.
  eexists. split; [apply generate_anki_deck_run|].
  cbn [run_of run_written snd media_files].
  apply map_no_dup.
  - intros f g Hf Hg. apply filter_In in Hf, Hg.
    apply path_join_injective; apply Hrelative; tauto.
  - now apply NoDup_filter.
Qed.

(** X11: the order in which the folder is listed changes the order of the
    notes and of the media files and nothing else: the counts returned
    are the same. *)
Theorem listing_order_is_immaterial (listing listing' : list string) :
  Permutation listing listing' ->
  exists run run' : Run,
    generate_anki_deck drawn_model_id drawn_deck_id listing art_folder
      output_file = Returns run
    /\ generate_anki_deck drawn_model_id drawn_deck_id listing' art_folder
         output_file = Returns run'
    /\ run_returned run = run_returned run'
    /\ Permutation (media_files (snd (run_written run)))
                   (media_files (snd (run_written run')))
    /\ Permutation (deck_notes (package_deck (snd (run_written run))))
                   (deck_notes (package_deck (snd (run_written run')))).
Proof.
  intros Hperm.
  pose proof (filter_permutation is_image _ _ Hperm) as Himages.
  pose proof (filter_permutation yields_card _ _ Himages) as Hcards.
  pose proof (filter_permutation fails_to_parse _ _ Himages) as Hfailed.
  eexists. eexists.
  split; [apply generate_anki_deck_run|].
  split; [apply generate_anki_deck_run|].
  cbn [run_of run_written run_returned snd media_files package_deck
       deck_notes].
  split; [|split].
  - now rewrite (Permutation_length Hcards), (Permutation_length Hfailed).
  - now apply Permutation_map.
  - now apply Permutation_map.
Qed.

End Listing.

Lemma folder_without_images_witness :
  generate_anki_deck 1073741824 1073741825 ["notes.txt"; "jpg"] "/ART"
    "/deck.apkg"
  = Returns
      {| run_stdout :=
           [ "Found 0 image files";
             "Successfully parsed: 0";
             "Failed to parse: 0";
             "Anki deck saved as: /deck.apkg" ];
         run_written :=
           ("/deck.apkg",
            {| package_deck :=
                 {| deck_id := 1073741825;
                    deck_name := "Art History Collection";
                    deck_notes := [] |};
               media_files := [] |});
         run_returned := (0, 0) |}.
Proof.
  apply (folder_without_images 1073741824 1073741825 "/ART" "/deck.apkg"
           ["notes.txt"; "jpg"]).
  intros file [<-|[<-|[]]]; reflexivity.
Defined.

Lemma media_paths_are_distinct_witness :
  exists run : Run,
    generate_anki_deck 1073741824 1073741825
      ["Claude-Monet-Water-Lilies.jpg"; "Monet.png"; "notes.txt"] "/ART"
      "/deck.apkg" = Returns run
    /\ NoDup (media_files (snd (run_written run))).
Proof.
  apply (media_paths_are_distinct 1073741824 1073741825 "/ART" "/deck.apkg").
  - repeat constructor; simpl; intuition discriminate.
  - intros file [<-|[<-|[<-|[]]]]; reflexivity.
Defined.

Lemma listing_order_is_immaterial_witness :
  exists run run' : Run,
    generate_anki_deck 1073741824 1073741825
      ["Claude-Monet-Water-Lilies.jpg"; "Monet.png"] "/ART" "/deck.apkg"
    = Returns run
    /\ generate_anki_deck 1073741824 1073741825
         ["Monet.png"; "Claude-Monet-Water-Lilies.jpg"] "/ART" "/deck.apkg"
       = Returns run'
    /\ run_returned run = run_returned run'
    /\ Permutation (media_files (snd (run_written run)))
                   (media_files (snd (run_written run')))
    /\ Permutation (deck_notes (package_deck (snd (run_written run))))
                   (deck_notes (package_deck (snd (run_written run')))).
Proof.
  apply (listing_order_is_immaterial 1073741824 1073741825 "/ART"
           "/deck.apkg").
  apply perm_swap.
Defined.

(** ** The extension and the trailing marker *)

Lemma str_length_append (x y : string) :
  String.length (x ++ y) = String.length x + String.length y.
Proof. induction x as [|c x IH]; simpl; [reflexivity|now rewrite IH]. Qed.

Lemma substring_all (s : string) : substring 0 (String.length s) s = s.
Proof. induction s as [|c s IH]; simpl; [reflexivity|now rewrite IH]. Qed.

Lemma substring_prefix (x y : string) :
  substring 0 (String.length x) (x ++ y) = x.
Proof.
  induction x as [|c x IH]; simpl; [now destruct y|now rewrite IH].
Qed.

Lemma substring_suffix (x y : string) :
  substring (String.length x) (String.length y) (x ++ y) = y.
Proof. induction x as [|c x IH]; simpl; [apply substring_all|exact IH]. Qed.

Lemma substring_split (s : string) (k : nat) :
  k <= String.length s ->
  s = (substring 0 k s ++ substring k (String.length s - k) s)%string.
Proof.
  revert k. induction s as [|c s IH]; intros k Hk.
  - simpl in Hk. replace k with 0 by lia. reflexivity.
  - destruct k as [|k].
    + rewrite Nat.sub_0_r, substring_all. reflexivity.
    + simpl in *. f_equal. apply IH. lia.
Qed.

Lemma endswith_append (x t : string) : Py.endswith (x ++ t) t = true.
Proof.
  unfold Py.endswith. rewrite str_length_append.
  replace (String.length x + String.length t - String.length t)
    with (String.length x) by lia.
  rewrite substring_suffix, String.eqb_refl.
  replace (String.length t <=? String.length x + String.length t) with true
    by (symmetry; apply Nat.leb_le; lia).
  reflexivity.
Qed.

Lemma endswith_split (s t : string) :
  Py.endswith s t = true -> exists x, s = (x ++ t)%string.
Proof.
  unfold Py.endswith. intros H. apply andb_prop in H. destruct H as [Hle Heq].
  apply Nat.leb_le in Hle. apply String.eqb_eq in Heq.
  exists (substring 0 (String.length s - String.length t) s).
  pose proof (substring_split s (String.length s - String.length t)) as H.
  replace (String.length s - (String.length s - String.length t))
    with (String.length t) in H by lia.
  rewrite Heq in H. apply H. lia.
Qed.

Lemma append_assoc (x y z : string) :
  ((x ++ y) ++ z = x ++ (y ++ z))%string.
Proof. induction x as [|c x IH]; simpl; [reflexivity|now rewrite IH]. Qed.

Lemma endswith_longer (s t : string) (c : ascii) :
  Py.endswith s t = false -> Py.endswith s (String c t) = false.
Proof.
  intros Hshort. destruct (Py.endswith s (String c t)) eqn:Hlong;
    [|reflexivity].
  apply endswith_split in Hlong. destruct Hlong as (x & ->).
  change (String c t) with (String c EmptyString ++ t)%string in Hshort.
  rewrite <- append_assoc, endswith_append in Hshort. discriminate.
Qed.

Lemma re_sub_at_end_hit (pat x : string) :
  Py.re_sub_at_end pat (x ++ pat) = x.
Proof.
  unfold Py.re_sub_at_end. rewrite endswith_append, str_length_append.
  replace (String.length x + String.length pat - String.length pat)
    with (String.length x) by lia.
  apply substring_prefix.
Qed.

Lemma re_sub_at_end_miss (pat s : string) :
  Py.endswith s pat = false ->
  Py.endswith s (pat ++ String Py.newline EmptyString) = false ->
  Py.re_sub_at_end pat s = s.
Proof. unfold Py.re_sub_at_end. now intros -> ->. Qed.

Lemma rfind_from_absent (c : ascii) (s : string) (i last : Z) :
  occurs c s = false -> Py.rfind_from c s i last = last.
Proof.
  revert i last. induction s as [|d s IH]; intros i last; simpl;
    [reflexivity|].
  intros H. apply orb_false_iff in H. destruct H as [Hd Hs].
  now rewrite Hd, (IH _ _ Hs).
Qed.

Lemma rfind_from_last (c : ascii) (x y : string) (i last : Z) :
  occurs c y = false ->
  Py.rfind_from c (x ++ String c y) i last
  = (i + Z.of_nat (String.length x))%Z.
Proof.
  intros Hy. revert i last.
  induction x as [|d x IH]; intros i last; simpl String.append;
    cbn [Py.rfind_from].
  - rewrite Ascii.eqb_refl, (rfind_from_absent _ _ _ _ Hy). simpl. lia.
  - rewrite IH. simpl String.length. lia.
Qed.

Lemma splitext_stem (base ext : string) :
  base <> EmptyString ->
  occurs "." base = false -> occurs "/" base = false ->
  occurs "." ext = false -> occurs "/" ext = false ->
  fst (Py.splitext (base ++ String "." ext)) = base.
Proof.
  intros Hne Hdot Hsep Hedot Hesep. unfold Py.splitext, Py.rfind.
  rewrite (rfind_from_last "." base ext 0 (-1) Hedot).
  rewrite (rfind_from_absent "/"); rewrite ?occurs_append, ?occurs_cons;
    rewrite ?Hsep, ?Hesep; try reflexivity.
  simpl Z.add. rewrite Nat2Z.id.
  replace (-1 <? Z.of_nat (String.length base))%Z with true
    by (symmetry; apply Z.ltb_lt; lia).
  change (Z.to_nat 0) with 0. rewrite Nat.sub_0_r.
  destruct base as [|c base]; [now elim Hne|].
  rewrite occurs_cons in Hdot. apply orb_false_iff in Hdot.
  destruct Hdot as [Hc _].
  simpl String.length. cbn [Py.has_non_dot]. simpl substring at 1.
  cbn [String.eqb]. rewrite Hc. cbn [negb fst].
  apply (substring_prefix (String c base) (String "." ext)).
Qed.

(** X5: the extension and a trailing --S are dropped and nothing else: a name
    with the marker parses as the name without it, for a name without
    dot or slash that does not itself end in -S. *)
Theorem marker_is_removed (name ext : string) :
  name <> EmptyString ->
  occurs "." name = false -> occurs "/" name = false ->
  occurs "." ext = false -> occurs "/" ext = false ->
  Py.endswith name "-S" = false ->
  Py.endswith name ("-S" ++ String Py.newline EmptyString) = false ->
  stem (name ++ "--S." ++ ext) = name
  /\ stem (name ++ "." ++ ext) = name
  /\ parse_filename (name ++ "--S." ++ ext)
     = parse_filename (name ++ "." ++ ext).
Proof.
  intros Hne Hdot Hsep Hedot Hesep Hs Hsn.
  assert (Hmarked : stem (name ++ "--S." ++ ext) = name).
  { unfold stem.
    change (name ++ "--S." ++ ext)%string
      with (name ++ ("--S" ++ String "." ext))%string.
    rewrite <- append_assoc, splitext_stem; try assumption.
    - rewrite re_sub_at_end_hit. now apply re_sub_at_end_miss.
    - destruct name; [now elim Hne|discriminate].
    - now rewrite occurs_append, Hdot.
    - now rewrite occurs_append, Hsep. }
  assert (Hbare : stem (name ++ "." ++ ext) = name).
  { unfold stem.
    change (name ++ "." ++ ext)%string with (name ++ String "." ext)%string.
    rewrite splitext_stem; try assumption.
    rewrite (re_sub_at_end_miss "--S").
    - now apply re_sub_at_end_miss.
    - now apply endswith_longer.
    - now apply endswith_longer. }
  split; [exact Hmarked|]. split; [exact Hbare|].
  unfold parse_filename, parse_filename_in, name_parts.
  now rewrite Hmarked, Hbare.
Qed.

Lemma marker_is_removed_witness :
  stem ("Claude-Monet-Water-Lilies" ++ "--S." ++ "jpg")
  = "Claude-Monet-Water-Lilies"
  /\ stem ("Claude-Monet-Water-Lilies" ++ "." ++ "jpg")
     = "Claude-Monet-Water-Lilies"
  /\ parse_filename ("Claude-Monet-Water-Lilies" ++ "--S." ++ "jpg")
     = parse_filename ("Claude-Monet-Water-Lilies" ++ "." ++ "jpg").
Proof.
  apply (marker_is_removed "Claude-Monet-Water-Lilies" "jpg");
    solve [discriminate | reflexivity].
Defined.

Section Concatenation.

Variables drawn_model_id drawn_deck_id : Z.
Variables art_folder output_file : string.

(** X12: files are handled one by one: the run over two listings put end to
    end has the notes and the media files of the first followed by those
    of the second, and counts that are the sums of theirs. *)
Theorem listings_add_up (listing1 listing2 : list string) :
  exists run1 run2 run : Run,
    generate_anki_deck drawn_model_id drawn_deck_id listing1 art_folder
      output_file = Returns run1
    /\ generate_anki_deck drawn_model_id drawn_deck_id listing2 art_folder
         output_file = Returns run2
    /\ generate_anki_deck drawn_model_id drawn_deck_id
         (listing1 ++ listing2) art_folder output_file = Returns run
    /\ run_returned run
       = (fst (run_returned run1) + fst (run_returned run2),
          snd (run_returned run1) + snd (run_returned run2))
    /\ deck_notes (package_deck (snd (run_written run)))
       = deck_notes (package_deck (snd (run_written run1)))
         ++ deck_notes (package_deck (snd (run_written run2)))
    /\ media_files (snd (run_written run))
       = media_files (snd (run_written run1))
         ++ media_files (snd (run_written run2)).
Proof.
  eexists. eexists. eexists.
  split; [apply generate_anki_deck_run|].
  split; [apply generate_anki_deck_run|].
  split; [apply generate_anki_deck_run|].
  cbn [run_of run_written run_returned fst snd media_files package_deck
       deck_notes].
  rewrite !filter_app, !map_app, !length_app. repeat split.
Qed.

End Concatenation.
